(** * Blaze: the iOS bridging header [ios/Blaze-Bridging-Header.h]

    The repository's only source file is an Objective-C bridging header.
    Its meaning is what the C preprocessor does with it, so the embedding
    has three layers:

    - the text of the header, line by line ([Blaze_Bridging_Header]);
    - a line lexer ([classify]) that recognises comments, blank lines,
      preprocessor directives and code;
    - a conditional-inclusion interpreter ([step], [run], [process_file])
      over a translation-unit state made of the macro environment, the
      set of imported headers and the entities declared so far.

    An [#import] resolves the named header and processes its lines in the
    same state.  The React framework headers are not part of the
    repository, so what the include path holds is a parameter
    ([resolve]).  The functions without that parameter ([step], [run],
    [process_file]) process a file on its own: every header it imports
    is taken to be present and empty. *)

From Stdlib Require Import Ascii String List Bool Arith Lia.
From stdpp Require Import base option gmap strings list fin_maps.
Import ListNotations.

Local Open Scope string_scope.
Local Open Scope list_scope.

(** ** The text of the header *)

Module Source.

(** [ios/Blaze-Bridging-Header.h], one string per line.  The file has
    sixteen newline characters and its last line is not terminated. *)
Definition Blaze_Bridging_Header : list string :=
  [ "//"
  ; "//  Blaze-Bridging-Header.h"
  ; "//  Blaze"
  ; "//"
  ; "//  Bridging header for Swift/Objective-C interop"
  ; "//"
  ; ""
  ; "#ifndef Blaze_Bridging_Header_h"
  ; "#define Blaze_Bridging_Header_h"
  ; ""
  ; "#import <React/RCTBridgeModule.h>"
  ; "#import <React/RCTEventEmitter.h>"
  ; "#import <React/RCTViewManager.h>"
  ; "#import <React/RCTConvert.h>"
  ; "#import <React/RCTLog.h>"
  ; ""
  ; "#endif /* Blaze_Bridging_Header_h */" ].

(** The include guard of the header (lines 8, 9 and 17). *)
Definition guard : string := "Blaze_Bridging_Header_h".

End Source.

(** ** Lexing one line *)

Module Lexer.

Inductive Directive : Type :=
| DIfndef (name : string)
| DIfdef (name : string)
| DDefine (name body : string)
| DUndef (name : string)
| DImport (header : string)
| DInclude (header : string)
| DEndif.

Inductive Line : Type :=
| LBlank
| LComment
| LDirective (d : Directive)
| LCode (text : string)
| LBad (text : string).

Definition is_space (c : ascii) : bool :=
  let n := nat_of_ascii c in
  ((n =? 32) || (n =? 9) || (n =? 13))%nat.

Definition is_ident_char (c : ascii) : bool :=
  let n := nat_of_ascii c in
  (((48 <=? n) && (n <=? 57)) || ((65 <=? n) && (n <=? 90))
   || ((97 <=? n) && (n <=? 122)) || (n =? 95))%nat.

Fixpoint skip_space (s : string) : string :=
  match s with
  | String c r => if is_space c then skip_space r else s
  | EmptyString => EmptyString
  end.

(** The longest identifier prefix of [s] and what follows it. *)
Fixpoint span_ident (s : string) : string * string :=
  match s with
  | String c r =>
      if is_ident_char c
      then let '(i, rest) := span_ident r in (String c i, rest)
      else (EmptyString, s)
  | EmptyString => (EmptyString, EmptyString)
  end.

(** The text before the first [stop], if [stop] occurs. *)
Fixpoint before (stop : ascii) (s : string) : option string :=
  match s with
  | String c r =>
      if Ascii.eqb c stop then Some EmptyString
      else String c <$> before stop r
  | EmptyString => None
  end.

(** A header name: [<path>] or a quoted path. *)
Definition header_name (s : string) : option string :=
  match s with
  | String c r =>
      if Ascii.eqb c "<"%char then before ">"%char r
      else if Ascii.eqb c (ascii_of_nat 34) then before (ascii_of_nat 34) r
      else None
  | EmptyString => None
  end.

Definition with_name (raw args : string) (k : string -> Directive) : Line :=
  match span_ident args with
  | (EmptyString, _) => LBad raw
  | (x, _) => LDirective (k x)
  end.

Definition with_header (raw args : string) (k : string -> Directive) : Line :=
  match header_name args with
  | Some h => LDirective (k h)
  | None => LBad raw
  end.

Definition directive (raw r : string) : Line :=
  let '(kw, rest) := span_ident (skip_space r) in
  let args := skip_space rest in
  if String.eqb kw "ifndef" then with_name raw args DIfndef
  else if String.eqb kw "ifdef" then with_name raw args DIfdef
  else if String.eqb kw "undef" then with_name raw args DUndef
  else if String.eqb kw "define" then
    match span_ident args with
    | (EmptyString, _) => LBad raw
    | (x, body) => LDirective (DDefine x (skip_space body))
    end
  else if String.eqb kw "import" then with_header raw args DImport
  else if String.eqb kw "include" then with_header raw args DInclude
  else if String.eqb kw "endif" then LDirective DEndif
  else LBad raw.

Definition classify (raw : string) : Line :=
  match skip_space raw with
  | EmptyString => LBlank
  | String c r =>
      if Ascii.eqb c "#"%char then directive raw r
      else if Ascii.eqb c "/"%char then
        match r with
        | String c' _ => if Ascii.eqb c' "/"%char then LComment else LCode raw
        | EmptyString => LCode raw
        end
      else LCode raw
  end.

Definition is_import (l : Line) : bool :=
  match l with
  | LDirective (DImport _) | LDirective (DInclude _) => true
  | _ => false
  end.

Definition is_directive (l : Line) : bool :=
  match l with LDirective _ => true | _ => false end.

Definition is_code (l : Line) : bool :=
  match l with LCode _ => true | _ => false end.

Definition is_comment (l : Line) : bool :=
  match l with LComment => true | _ => false end.

Definition is_blank (l : Line) : bool :=
  match l with LBlank => true | _ => false end.

Definition imported_header (l : Line) : option string :=
  match l with
  | LDirective (DImport h) | LDirective (DInclude h) => Some h
  | _ => None
  end.

End Lexer.

(** ** The translation-unit state and the preprocessor *)

Module Preprocessor.

Import Lexer.

(** What a translation unit has accumulated so far: the macro environment
    (name to replacement text), the headers imported, and the entities
    (declarations and statements, kept as text) in the order they were
    declared. *)
Record State : Type := mkState
  { macros : gmap string string
  ; imported : gset string
  ; entities : list string }.

Definition empty_state : State :=
  {| macros := ∅; imported := ∅; entities := [] |}.

(** The effects a line can have on the state.  [EvImport h] records that
    header [h] has been imported; what the lines of [h] do appears as
    the events that follow it in the trace. *)
Inductive Event : Type :=
| EvDefine (name body : string)
| EvUndef (name : string)
| EvImport (header : string)
| EvDeclare (text : string).

Definition apply_event (e : Event) (st : State) : State :=
  match e with
  | EvDefine x b =>
      {| macros := <[x := b]> (macros st)
       ; imported := imported st; entities := entities st |}
  | EvUndef x =>
      {| macros := delete x (macros st)
       ; imported := imported st; entities := entities st |}
  | EvImport h =>
      {| macros := macros st
       ; imported := {[h]} ∪ imported st; entities := entities st |}
  | EvDeclare t =>
      {| macros := macros st
       ; imported := imported st; entities := entities st ++ [t] |}
  end.

Definition replay (t : list Event) (st : State) : State :=
  fold_left (fun s e => apply_event e s) t st.

Inductive PPError : Type :=
| StrayEndif
| UnterminatedConditional
| BadDirective (text : string)
| MissingHeader (header : string)
| TooDeep (header : string).

Inductive result (A : Type) : Type :=
| Ok (a : A)
| Err (e : PPError).
Arguments Ok {A} a.
Arguments Err {A} e.

Definition bind {A B : Type} (r : result A) (k : A -> result B) : result B :=
  match r with
  | Ok a => k a
  | Err e => Err e
  end.

Definition is_ok {A : Type} (r : result A) : bool :=
  match r with Ok _ => true | Err _ => false end.

(** The interpreter's configuration: the state, the stack of open
    conditionals (innermost first, [true] when its group is taken) and
    the trace of effects performed. *)
Record Config : Type := mkConfig
  { cstate : State
  ; conds : list bool
  ; trace : list Event }.

Definition start (st : State) : Config :=
  {| cstate := st; conds := []; trace := [] |}.

Definition defined (x : string) (st : State) : bool :=
  match macros st !! x with
  | Some _ => true
  | None => false
  end.

Definition active (c : Config) : bool := forallb id (conds c).

Definition emit (e : Event) (c : Config) : Config :=
  {| cstate := apply_event e (cstate c)
   ; conds := conds c
   ; trace := trace c ++ [e] |}.

Definition push (b : bool) (c : Config) : Config :=
  {| cstate := cstate c; conds := b :: conds c; trace := trace c |}.

Definition when_active (e : Event) (c : Config) : result Config :=
  if active c then Ok (emit e c) else Ok c.

Definition with_conds (k : list bool) (c : Config) : Config :=
  {| cstate := cstate c; conds := k; trace := trace c |}.

(** Every conditional of a file must be closed at its end. *)
Definition closed (c : Config) : result Config :=
  match conds c with
  | [] => Ok c
  | _ :: _ => Err UnterminatedConditional
  end.

(** An import directive in a taken group records the header and then
    enters it ([enter] resolves the header and processes its lines).
    [#import] ([once]) does not enter a header that was imported
    before; [#include] always does. *)
Definition import_with (enter : string -> Config -> result Config)
    (once : bool) (h : string) (c : Config) : result Config :=
  if active c then
    if once && bool_decide (h ∈ imported (cstate c))
    then Ok (emit (EvImport h) c)
    else enter h (emit (EvImport h) c)
  else Ok c.

Definition step_with (enter : string -> Config -> result Config)
    (l : Line) (c : Config) : result Config :=
  match l with
  | LBlank | LComment => Ok c
  | LCode t => when_active (EvDeclare t) c
  | LBad t => if active c then Err (BadDirective t) else Ok c
  | LDirective d =>
      match d with
      | DIfndef x => Ok (push (negb (defined x (cstate c))) c)
      | DIfdef x => Ok (push (defined x (cstate c)) c)
      | DDefine x b => when_active (EvDefine x b) c
      | DUndef x => when_active (EvUndef x) c
      | DImport h => import_with enter true h c
      | DInclude h => import_with enter false h c
      | DEndif =>
          match conds c with
          | [] => Err StrayEndif
          | _ :: k =>
              Ok {| cstate := cstate c; conds := k; trace := trace c |}
          end
      end
  end.

Fixpoint run_with (enter : string -> Config -> result Config)
    (ls : list Line) (c : Config) : result Config :=
  match ls with
  | [] => Ok c
  | l :: rest => bind (step_with enter l c) (run_with enter rest)
  end.

Section Headers.

(** The include path: the lines of each header that can be found. *)
Variable resolve : string -> option (list string).

(** Entering header [h] with [d] levels of nesting left: the header is
    resolved and its lines are processed in the current state, with a
    conditional stack of their own. *)
Fixpoint enter (d : nat) (h : string) (c : Config) : result Config :=
  match d with
  | 0 => Err (TooDeep h)
  | S d' =>
      match resolve h with
      | None => Err (MissingHeader h)
      | Some f =>
          bind (bind (run_with (enter d') (map classify f) (with_conds [] c))
                     closed)
               (fun c' => Ok (with_conds (conds c) c'))
      end
  end.

(** Processing a whole file from state [st] with [d] levels of nesting
    allowed.  The result is the new state and the effects performed. *)
Definition process_file_in (d : nat) (f : list string) (st : State)
  : result (State * list Event) :=
  bind (bind (run_with (enter d) (map classify f) (start st)) closed)
       (fun c => Ok (cstate c, trace c)).

End Headers.

(** A file on its own: each header it imports is present and empty, so
    entering it does nothing. *)
Definition stand_in (h : string) (c : Config) : result Config := Ok c.

Definition step (l : Line) (c : Config) : result Config :=
  step_with stand_in l c.

Definition run (ls : list Line) (c : Config) : result Config :=
  run_with stand_in ls c.

(** Processing a whole file on its own from state [st]: every
    conditional must be closed at the end of the file.  The result is
    the new state and the effects performed. *)
Definition process_file (f : list string) (st : State)
  : result (State * list Event) :=
  bind (run (map classify f) (start st))
       (fun c =>
          match conds c with
          | [] => Ok (cstate c, trace c)
          | _ :: _ => Err UnterminatedConditional
          end).

(** Including a file: only the resulting state is kept. *)
Definition include_file (f : list string) (st : State) : result State :=
  bind (process_file f st) (fun r => Ok (fst r)).

End Preprocessor.

Import Source Lexer Preprocessor.

(** ** The header as a program *)

(** The lines of the header after lexing. *)
Definition header_lines : list Line := map classify Blaze_Bridging_Header.

(** The headers named by the import directives of the file, in order. *)
Definition file_imports : list string :=
  omap imported_header header_lines.

Definition process_header (st : State) : result (State * list Event) :=
  process_file Blaze_Bridging_Header st.

Definition include_header (st : State) : result State :=
  include_file Blaze_Bridging_Header st.

(** Processing the header with include path [resolve] and [d] levels of
    nesting allowed. *)
Definition process_header_in (resolve : string -> option (list string))
    (d : nat) (st : State) : result (State * list Event) :=
  process_file_in resolve d Blaze_Bridging_Header st.

(** The macros the file's own directives define and undefine. *)
Definition file_defines : list (string * string) :=
  omap (fun l => match l with
                 | LDirective (DDefine x b) => Some (x, b)
                 | _ => None
                 end) header_lines.

Definition file_undefs : list string :=
  omap (fun l => match l with
                 | LDirective (DUndef x) => Some x
                 | _ => None
                 end) header_lines.

(** Importing headers one after the other. *)
Definition import_all (enter : string -> Config -> result Config)
    (hs : list string) (c : Config) : result Config :=
  run_with enter (map (fun h => LDirective (DImport h)) hs) c.

(** The configuration in which the first import of the header is
    reached when the guard was undefined: the conditional of line 8 is
    open and taken, and the guard has just been defined. *)
Definition guarded (st : State) : Config :=
  emit (EvDefine guard "") (push true (start st)).

(** The five imports of the header, performed from [guarded st]. *)
Definition imports_from (resolve : string -> option (list string))
    (d : nat) (st : State) : result (State * list Event) :=
  bind (import_all (enter resolve d) file_imports (guarded st))
       (fun c => Ok (cstate c, trace c)).

Definition effects_of (r : result (State * list Event))
  : option (list Event) :=
  match r with
  | Ok (_, t) => Some t
  | Err _ => None
  end.

Definition state_of (r : result (State * list Event)) : option State :=
  match r with
  | Ok (st, _) => Some st
  | Err _ => None
  end.

(** Three include paths used as examples: one on which nothing is found
    (the repository as it stands, without the React framework), one on
    which every header is present and empty, and one with sample
    contents for the React headers (a macro, a declaration, a nested
    import and a group that depends on [DEBUG]). *)
Definition no_headers (h : string) : option (list string) := None.

Definition empty_headers (h : string) : option (list string) := Some [].

Definition sample_headers (h : string) : option (list string) :=
  if String.eqb h "React/RCTBridgeModule.h" then
    Some [ "#define RCT_EXTERN extern"; "@protocol RCTBridgeModule;" ]
  else if String.eqb h "React/RCTEventEmitter.h" then
    Some [ "#import <React/RCTBridgeModule.h>"; "@class RCTEventEmitter;" ]
  else if String.eqb h "React/RCTViewManager.h" then Some []
  else if String.eqb h "React/RCTConvert.h" then Some []
  else if String.eqb h "React/RCTLog.h" then
    Some [ "#ifdef DEBUG"; "#define RCT_TRACE 1"; "#endif" ]
  else None.

(** What the header does when its guard is not yet defined. *)
Definition header_effects : list Event :=
  [ EvDefine guard ""
  ; EvImport "React/RCTBridgeModule.h"
  ; EvImport "React/RCTEventEmitter.h"
  ; EvImport "React/RCTViewManager.h"
  ; EvImport "React/RCTConvert.h"
  ; EvImport "React/RCTLog.h" ].

(** The declarations and statements the file itself contains. *)
Definition file_declarations : list string :=
  omap (fun l => match l with LCode t => Some t | _ => None end) header_lines.

(** The directives of the file that are not imports. *)
Definition other_directives : list Line :=
  List.filter (fun l => is_directive l && negb (is_import l)) header_lines.

(** The entities a trace declares, and the macros it defines. *)
Definition declared (t : list Event) : list string :=
  omap (fun e => match e with EvDeclare d => Some d | _ => None end) t.

Definition defines (t : list Event) : list (string * string) :=
  omap (fun e => match e with EvDefine x b => Some (x, b) | _ => None end) t.

Definition imports_of (t : list Event) : list string :=
  omap (fun e => match e with EvImport h => Some h | _ => None end) t.

(** Running declarations on a program state, for any meaning [exec] of a
    single declaration or statement. *)
Definition exec_all {ProgState : Type}
    (exec : string -> ProgState -> ProgState)
    (ds : list string) (sigma : ProgState) : ProgState :=
  fold_left (fun s d => exec d s) ds sigma.

(** The capability each React interop header provides, in the words of
    the specification's list of external interfaces. *)
Inductive Capability : Type :=
| ModuleRegistration
| EventEmission
| ViewManagement
| TypeConversion
| Logging.

#[global] Instance Capability_eq_dec : EqDecision Capability.
Proof. solve_decision. Defined.

Definition capability_of (header : string) : option Capability :=
  if String.eqb header "React/RCTBridgeModule.h" then Some ModuleRegistration
  else if String.eqb header "React/RCTEventEmitter.h" then Some EventEmission
  else if String.eqb header "React/RCTViewManager.h" then Some ViewManagement
  else if String.eqb header "React/RCTConvert.h" then Some TypeConversion
  else if String.eqb header "React/RCTLog.h" then Some Logging
  else None.

(** Two sample states used to exercise the theorems: a translation unit
    that already has a macro, an import and a declaration of its own, and
    one in which the header has been processed before. *)
Definition busy_state : State :=
  {| macros := {[ "DEBUG" := "1" ]}
   ; imported := {[ "Foundation/Foundation.h" ]}
   ; entities := ["@class BlazeModule;"] |}.

Definition guarded_state : State :=
  {| macros := {[ guard := "" ]}
   ; imported := ∅
   ; entities := [] |}.

(** Effects that remove the macro [x]. *)
Definition undefines (x : string) (e : Event) : bool :=
  match e with
  | EvUndef y => String.eqb x y
  | _ => false
  end.


(** ** Properties of the interpreter *)

Lemma header_lines_eq :
  header_lines =
  [ LComment; LComment; LComment; LComment; LComment; LComment; LBlank
  ; LDirective (DIfndef guard)
  ; LDirective (DDefine guard "")
  ; LBlank
  ; LDirective (DImport "React/RCTBridgeModule.h")
  ; LDirective (DImport "React/RCTEventEmitter.h")
  ; LDirective (DImport "React/RCTViewManager.h")
  ; LDirective (DImport "React/RCTConvert.h")
  ; LDirective (DImport "React/RCTLog.h")
  ; LBlank
  ; LDirective DEndif ].
Proof. vm_compute. reflexivity. Qed.

Lemma file_imports_eq :
  file_imports =
  [ "React/RCTBridgeModule.h"; "React/RCTEventEmitter.h"
  ; "React/RCTViewManager.h"; "React/RCTConvert.h"; "React/RCTLog.h" ].
Proof. unfold file_imports. rewrite header_lines_eq. reflexivity. Qed.

Lemma file_declarations_eq : file_declarations = [].
Proof. unfold file_declarations. rewrite header_lines_eq. reflexivity. Qed.

Lemma header_no_code : Forall (fun l => is_code l = false) header_lines.
Proof. rewrite header_lines_eq. repeat constructor. Qed.

(** The interpreter can fail: the success of the header is a property of
    its text, not of the interpreter. *)
Example stray_endif_fails :
  process_file ["#endif"] empty_state = Err StrayEndif.
Proof. reflexivity. Qed.

Example open_conditional_fails :
  process_file ["#ifndef X"] empty_state = Err UnterminatedConditional.
Proof. vm_compute. reflexivity. Qed.

Example unknown_directive_fails :
  process_file ["#pragma once"] empty_state = Err (BadDirective "#pragma once").
Proof. vm_compute. reflexivity. Qed.

Example code_line_declares :
  declared (trace (emit (EvDeclare "int counter;") (start empty_state)))
  = ["int counter;"].
Proof. reflexivity. Qed.

(** *** Running a sequence of lines *)

(** Entering an empty stand-in is the identity, so on its own an import
    only records the header. *)
Lemma import_stand_in (once : bool) (h : string) (c : Config) :
  import_with stand_in once h c = when_active (EvImport h) c.
Proof.
  unfold import_with, when_active, stand_in.
  destruct (active c); [|reflexivity].
  destruct (once && bool_decide (h ∈ imported (cstate c))); reflexivity.
Qed.

Lemma step_own (l : Line) (c : Config) :
  step l c =
  match l with
  | LBlank | LComment => Ok c
  | LCode t => when_active (EvDeclare t) c
  | LBad t => if active c then Err (BadDirective t) else Ok c
  | LDirective d =>
      match d with
      | DIfndef x => Ok (push (negb (defined x (cstate c))) c)
      | DIfdef x => Ok (push (defined x (cstate c)) c)
      | DDefine x b => when_active (EvDefine x b) c
      | DUndef x => when_active (EvUndef x) c
      | DImport h | DInclude h => when_active (EvImport h) c
      | DEndif =>
          match conds c with
          | [] => Err StrayEndif
          | _ :: k => Ok (with_conds k c)
          end
      end
  end.
Proof.
  unfold step. destruct l as [| |d|t|t]; try reflexivity.
  destruct d; try reflexivity; apply import_stand_in.
Qed.

Lemma run_cons (l : Line) (ls : list Line) (c : Config) :
  run (l :: ls) c = bind (step l c) (run ls).
Proof. reflexivity. Qed.

Lemma run_cons_ok (l : Line) (ls : list Line) (c c1 : Config) :
  step l c = Ok c1 -> run (l :: ls) c = run ls c1.
Proof. intros H. rewrite run_cons, H. reflexivity. Qed.

Lemma run_with_app (enter : string -> Config -> result Config)
    (l1 l2 : list Line) (c : Config) :
  run_with enter (l1 ++ l2) c
  = bind (run_with enter l1 c) (run_with enter l2).
Proof.
  revert c. induction l1 as [|l l1 IH]; intros c; simpl; [reflexivity|].
  destruct (step_with enter l c) as [c'|e]; simpl; [apply IH | reflexivity].
Qed.

Lemma run_app (l1 l2 : list Line) (c : Config) :
  run (l1 ++ l2) c = bind (run l1 c) (run l2).
Proof. apply run_with_app. Qed.

Lemma run_prefix_ok (n : nat) (ls : list Line) (c cf : Config) :
  run ls c = Ok cf -> exists c', run (take n ls) c = Ok c'.
Proof.
  intros Hrun. rewrite <- (take_drop n ls), run_app in Hrun.
  destruct (run (take n ls) c) as [c'|e]; [eauto | discriminate].
Qed.

Lemma declared_app (t1 t2 : list Event) :
  declared (t1 ++ t2) = declared t1 ++ declared t2.
Proof. unfold declared. apply omap_app. Qed.

(** A line that is not code leaves the entities and the declarations of
    the trace as they are. *)
Lemma step_no_code (l : Line) (c c' : Config) :
  is_code l = false -> step l c = Ok c' ->
  entities (cstate c') = entities (cstate c)
  /\ declared (trace c') = declared (trace c).
Proof.
  intros Hl Hs. rewrite step_own in Hs.
  destruct l as [| |d|t|t]; simpl in Hl; try discriminate; simpl in Hs.
  - injection Hs as <-. auto.
  - injection Hs as <-. auto.
  - destruct d; simpl in Hs; unfold when_active in Hs;
      try (destruct (active c); injection Hs as <-; simpl;
           rewrite ?declared_app, ?app_nil_r; auto);
      try (injection Hs as <-; auto).
    destruct (conds c); [discriminate|]. injection Hs as <-. auto.
  - destruct (active c); [discriminate|]. injection Hs as <-. auto.
Qed.

Lemma run_no_code (ls : list Line) (c c' : Config) :
  Forall (fun l => is_code l = false) ls -> run ls c = Ok c' ->
  entities (cstate c') = entities (cstate c)
  /\ declared (trace c') = declared (trace c).
Proof.
  intros Hls. revert c. induction Hls as [|l ls Hl _ IH]; intros c Hrun.
  - injection Hrun as <-. auto.
  - rewrite run_cons in Hrun.
    destruct (step l c) as [c1|e] eqn:Hs; [|discriminate].
    simpl in Hrun. destruct (step_no_code _ _ _ Hl Hs) as [He Hd].
    destruct (IH _ Hrun) as [He' Hd']. split; congruence.
Qed.

(** *** The header, from any state *)

Lemma run_header_spec (st : State) :
  run header_lines (start st) =
  Ok (if defined guard st
      then start st
      else {| cstate := replay header_effects st
            ; conds := []
            ; trace := header_effects |}).
Proof.
  rewrite header_lines_eq.
  do 8 (erewrite run_cons_ok by (rewrite step_own; reflexivity)).
  cbn [start cstate].
  destruct (defined guard st) eqn:Hd; cbn [negb];
    repeat (erewrite run_cons_ok by (rewrite step_own; reflexivity));
    reflexivity.
Qed.

Lemma process_header_spec (st : State) :
  process_header st =
  Ok (if defined guard st then (st, [])
      else (replay header_effects st, header_effects)).
Proof.
  unfold process_header, process_file. fold header_lines.
  rewrite run_header_spec. destruct (defined guard st); reflexivity.
Qed.

Lemma include_header_spec (st : State) :
  include_header st =
  Ok (if defined guard st then st else replay header_effects st).
Proof.
  unfold include_header, include_file. fold (process_header st).
  rewrite process_header_spec. destruct (defined guard st); reflexivity.
Qed.

Lemma replay_header_macros (st : State) :
  macros (replay header_effects st) = <[guard := ""]> (macros st).
Proof. reflexivity. Qed.

Lemma replay_header_entities (st : State) :
  entities (replay header_effects st) = entities st.
Proof. reflexivity. Qed.

Lemma replay_header_imported (st : State) :
  imported (replay header_effects st)
  = list_to_set file_imports ∪ imported st.
Proof.
  rewrite file_imports_eq. cbn [replay header_effects fold_left apply_event imported].
  cbn [list_to_set]. apply set_eq. intros h.
  rewrite !elem_of_union, !elem_of_singleton, elem_of_empty. tauto.
Qed.

Lemma defined_replay_header (st : State) :
  defined guard (replay header_effects st) = true.
Proof.
  unfold defined. rewrite replay_header_macros, lookup_insert_eq. reflexivity.
Qed.

Lemma defined_false_lookup (x : string) (st : State) :
  defined x st = false <-> macros st !! x = None.
Proof. unfold defined. destruct (macros st !! x); split; congruence. Qed.

(** ** The claims *)

(** C1: the headers imported by the file are exactly the five React
    interop headers, without repetition, and they correspond one to one,
    in order, to the five capabilities (module registration, event
    emission, view management, type conversion, logging); processing the
    file from any state imports these five and no other header. *)
Theorem C1_imports_exactly_five (st : State) :
  file_imports =
    [ "React/RCTBridgeModule.h"; "React/RCTEventEmitter.h"
    ; "React/RCTViewManager.h"; "React/RCTConvert.h"; "React/RCTLog.h" ]
  /\ NoDup file_imports
  /\ map capability_of file_imports =
       [ Some ModuleRegistration; Some EventEmission; Some ViewManagement
       ; Some TypeConversion; Some Logging ]
  /\ (forall c : Capability,
        length (List.filter
                  (fun h => bool_decide (capability_of h = Some c))
                  file_imports) = 1)
  /\ exists st' t,
       process_header st = Ok (st', t)
       /\ imports_of t = (if defined guard st then [] else file_imports)
       /\ imported st' =
            (if defined guard st then ∅ else list_to_set file_imports)
            ∪ imported st.
Proof.
  split; [apply file_imports_eq|].
  split.
  { rewrite file_imports_eq. apply (bool_decide_unpack _). vm_compute. exact I. }
  split; [rewrite file_imports_eq; reflexivity|].
  split.
  { intros c. rewrite file_imports_eq. destruct c; reflexivity. }
  rewrite process_header_spec.
  destruct (defined guard st).
  - exists st, []. repeat split. symmetry. apply (left_id_L ∅ (∪)).
  - exists (replay header_effects st), header_effects.
    split; [reflexivity|]. split.
    + rewrite file_imports_eq. reflexivity.
    + apply replay_header_imported.
Qed.

(** C2, as stated, fails: not every line of the file is an import
    statement (its first line is a comment). *)
Lemma C2_not_every_line_is_import :
  ~ (length Blaze_Bridging_Header = 17
     /\ Forall (fun raw => is_import (classify raw) = true)
               Blaze_Bridging_Header).
Proof.
  intros [_ H]. inversion H as [|raw rest Hraw _]. discriminate Hraw.
Qed.

(** C2, amended: the file has 17 lines, of which exactly five, lines 11
    to 15, are import statements; the other twelve are six comment
    lines (lines 1 to 6), three blank lines (7, 10 and 16) and the three
    directives of the include guard ([#ifndef] on line 8, [#define] on
    line 9, [#endif] on line 17); no line is code. *)
Theorem C2_seventeen_lines_five_imports :
  length Blaze_Bridging_Header = 17
  /\ header_lines =
       [ LComment; LComment; LComment; LComment; LComment; LComment
       ; LBlank
       ; LDirective (DIfndef guard)
       ; LDirective (DDefine guard "")
       ; LBlank
       ; LDirective (DImport "React/RCTBridgeModule.h")
       ; LDirective (DImport "React/RCTEventEmitter.h")
       ; LDirective (DImport "React/RCTViewManager.h")
       ; LDirective (DImport "React/RCTConvert.h")
       ; LDirective (DImport "React/RCTLog.h")
       ; LBlank
       ; LDirective DEndif ]
  /\ map is_import header_lines =
       replicate 10 false ++ replicate 5 true ++ replicate 2 false
  /\ List.filter (fun raw => is_import (classify raw)) Blaze_Bridging_Header =
       [ "#import <React/RCTBridgeModule.h>"
       ; "#import <React/RCTEventEmitter.h>"
       ; "#import <React/RCTViewManager.h>"
       ; "#import <React/RCTConvert.h>"
       ; "#import <React/RCTLog.h>" ]
  /\ length (List.filter is_comment header_lines) = 6
  /\ length (List.filter is_blank header_lines) = 3
  /\ other_directives =
       [ LDirective (DIfndef guard)
       ; LDirective (DDefine guard "")
       ; LDirective DEndif ]
  /\ List.filter is_code header_lines = [].
Proof.
  split; [reflexivity|]. split; [apply header_lines_eq|].
  unfold other_directives. rewrite header_lines_eq.
  repeat split; vm_compute; reflexivity.
Qed.

Section Runtime.

Context {ProgState : Type} (exec : string -> ProgState -> ProgState).

(** C3: the file contains no declaration and no statement of its own, so
    whatever a declaration or statement means ([exec]), running those of
    the file on any program state leaves that state as it is; processing
    the file from any translation-unit state succeeds and declares
    nothing. *)
Theorem C3_no_declaration_no_behaviour (st : State) (sigma : ProgState) :
  file_declarations = []
  /\ exec_all exec file_declarations sigma = sigma
  /\ exists st' t,
       process_header st = Ok (st', t)
       /\ declared t = []
       /\ entities st' = entities st
       /\ exec_all exec (declared t) sigma = sigma.
Proof.
  split; [apply file_declarations_eq|].
  split; [rewrite file_declarations_eq; reflexivity|].
  rewrite process_header_spec.
  destruct (defined guard st); eexists _, _; repeat split.
Qed.

End Runtime.

(** C5, as stated, fails: processing the header does not leave every
    state unchanged (from the empty state the guard macro becomes
    defined). *)
Lemma C5_state_changes :
  ~ (forall st st' t, process_header st = Ok (st', t) -> st' = st).
Proof.
  intros H.
  specialize (H empty_state _ _ (process_header_spec empty_state)).
  change (defined guard empty_state) with false in H.
  apply (f_equal (fun s => macros s !! guard)) in H.
  rewrite replay_header_macros, lookup_insert_eq in H.
  discriminate H.
Qed.



(** C7: no global variable (indeed no entity at all, hence no class
    hierarchy, method or coroutine either) is introduced by the file,
    and this holds as an invariant along its whole content: after any
    number of its lines, from any state, the entities are those of the
    starting state and nothing has been declared. *)
Theorem C7_no_entity_introduced (n : nat) (st : State) :
  file_declarations = []
  /\ exists c,
       run (take n header_lines) (start st) = Ok c
       /\ entities (cstate c) = entities st
       /\ declared (trace c) = [].
Proof.
  split; [apply file_declarations_eq|].
  destruct (run_prefix_ok n _ _ _ (run_header_spec st)) as [c Hc].
  exists c. split; [exact Hc|].
  apply (run_no_code (take n header_lines) (start st) c);
    [apply Forall_take, header_no_code | exact Hc].
Qed.


(** ** The include guard among other effects *)

Lemma defined_apply_event (x : string) (e : Event) (st : State) :
  undefines x e = false -> defined x st = true ->
  defined x (apply_event e st) = true.
Proof.
  unfold defined. intros He Hd.
  destruct e as [y b|y|h|d]; simpl in *; try exact Hd.
  - destruct (decide (y = x)) as [->|Hne].
    + rewrite lookup_insert_eq. reflexivity.
    + rewrite lookup_insert_ne by exact Hne. exact Hd.
  - apply String.eqb_neq in He.
    rewrite lookup_delete_ne by congruence. exact Hd.
Qed.

Lemma defined_replay (x : string) (u : list Event) (st : State) :
  forallb (fun e => negb (undefines x e)) u = true ->
  defined x st = true -> defined x (replay u st) = true.
Proof.
  revert st. induction u as [|e u IH]; intros st Hu Hd; [exact Hd|].
  simpl in Hu. apply andb_prop in Hu as [He Hu].
  apply negb_true_iff in He. simpl. apply IH; [exact Hu|].
  apply defined_apply_event; assumption.
Qed.

Lemma include_header_defines_guard (st st1 : State) :
  include_header st = Ok st1 -> defined guard st1 = true.
Proof.
  rewrite include_header_spec. intros H. injection H as <-.
  destruct (defined guard st) eqn:Hd; [exact Hd | apply defined_replay_header].
Qed.



(** X1: once the header has been included, a later inclusion is void
    whatever happened in between, as long as the guard was not removed:
    after any effects that do not [#undef] the guard (they may even
    redefine it), processing the header again performs nothing and
    returns the state it was given. *)
Theorem X1_later_inclusion_is_void (st : State) (u : list Event) :
  forallb (fun e => negb (undefines guard e)) u = true ->
  exists st1,
    include_header st = Ok st1
    /\ process_header (replay u st1) = Ok (replay u st1, []).
Proof.
  intros Hu.
  destruct (include_header st) as [st1|e] eqn:H1.
  - exists st1. split; [reflexivity|].
    rewrite process_header_spec.
    rewrite (defined_replay guard u st1 Hu (include_header_defines_guard _ _ H1)).
    reflexivity.
  - rewrite include_header_spec in H1. discriminate H1.
Qed.

Lemma X1_later_inclusion_is_void_witness :
  let u := [ EvDefine "DEBUG" "0"; EvUndef "DEBUG"; EvDefine guard "1"
           ; EvDeclare "@class BlazeView;"; EvImport "UIKit/UIKit.h" ] in
  forallb (fun e => negb (undefines guard e)) u = true
  /\ exists st1,
       include_header busy_state = Ok st1
       /\ process_header (replay u st1) = Ok (replay u st1, []).
Proof.
  intros u. split;
    [reflexivity | apply (X1_later_inclusion_is_void busy_state u); reflexivity].
Defined.




(** The bound of X4 is tight: after line 8 the guard is still undefined. *)
Example guard_undefined_after_line_8 :
  (fun r => match r with
            | Ok c => defined guard (cstate c)
            | Err _ => true
            end) (run (take 8 header_lines) (start busy_state)) = false.
Proof. vm_compute. reflexivity. Qed.

(** ** The header with its imports resolved *)

Section Resolved.

Variable resolve : string -> option (list string).

Lemma enter_conds (d : nat) (h : string) (c c' : Config) :
  enter resolve d h c = Ok c' -> conds c' = conds c.
Proof.
  destruct d as [|d]; simpl; [discriminate|].
  destruct (resolve h) as [f|]; [|discriminate].
  destruct (run_with (enter resolve d) (map classify f) (with_conds [] c))
    as [c1|e]; simpl; [|discriminate].
  unfold closed. destruct (conds c1); simpl; [|discriminate].
  intros H. injection H as <-. reflexivity.
Qed.

Lemma import_conds (d : nat) (once : bool) (h : string) (c c' : Config) :
  import_with (enter resolve d) once h c = Ok c' -> conds c' = conds c.
Proof.
  unfold import_with. destruct (active c).
  - destruct (once && bool_decide (h ∈ imported (cstate c))).
    + intros H. injection H as <-. reflexivity.
    + intros H. apply enter_conds in H. exact H.
  - intros H. injection H as <-. reflexivity.
Qed.

Lemma import_all_conds (d : nat) (hs : list string) (c c' : Config) :
  import_all (enter resolve d) hs c = Ok c' -> conds c' = conds c.
Proof.
  unfold import_all. revert c.
  induction hs as [|h hs IH]; intros c; simpl.
  - intros H. injection H as <-. reflexivity.
  - destruct (import_with (enter resolve d) true h c) as [c1|e] eqn:H1;
      simpl; [|discriminate].
    intros H. rewrite (IH _ H). exact (import_conds _ _ _ _ _ H1).
Qed.

Lemma run_with_cons_ok (enter : string -> Config -> result Config)
    (l : Line) (ls : list Line) (c c1 : Config) :
  step_with enter l c = Ok c1 ->
  run_with enter (l :: ls) c = run_with enter ls c1.
Proof. intros H. simpl. rewrite H. reflexivity. Qed.

(** The first ten lines of the header never reach an import. *)
Lemma run_header_prefix_in (d : nat) (st : State) :
  run_with (enter resolve d) (take 10 header_lines) (start st)
  = Ok (if defined guard st then push false (start st) else guarded st).
Proof.
  rewrite header_lines_eq. cbn [take firstn].
  do 8 (erewrite run_with_cons_ok by reflexivity).
  cbn [start cstate].
  destruct (defined guard st); cbn [negb];
    do 2 (erewrite run_with_cons_ok by reflexivity); reflexivity.
Qed.

Lemma run_header_in_spec (d : nat) (st : State) :
  bind (run_with (enter resolve d) header_lines (start st)) closed
  = if defined guard st then Ok (start st)
    else bind (import_all (enter resolve d) file_imports (guarded st))
              (fun c => Ok (with_conds [] c)).
Proof.
  rewrite <- (take_drop 10 header_lines), run_with_app, run_header_prefix_in.
  rewrite file_imports_eq, header_lines_eq. cbn [drop bind].
  destruct (defined guard st).
  - repeat (erewrite run_with_cons_ok by reflexivity). reflexivity.
  - change (run_with (enter resolve d) ?ls (guarded st))
      with (run_with (enter resolve d)
              (map (fun h => LDirective (DImport h))
                 [ "React/RCTBridgeModule.h"; "React/RCTEventEmitter.h"
                 ; "React/RCTViewManager.h"; "React/RCTConvert.h"
                 ; "React/RCTLog.h" ]
               ++ [LBlank; LDirective DEndif]) (guarded st)).
    rewrite run_with_app. unfold import_all.
    destruct (run_with (enter resolve d) (map _ _) (guarded st))
      as [c|e] eqn:Hi; [|reflexivity].
    apply (import_all_conds d _ (guarded st) c) in Hi.
    cbn [bind run_with step_with]. rewrite Hi. reflexivity.
Qed.

Lemma process_header_in_spec (d : nat) (st : State) :
  process_header_in resolve d st
  = if defined guard st then Ok (st, []) else imports_from resolve d st.
Proof.
  unfold process_header_in, process_file_in. fold header_lines.
  rewrite run_header_in_spec. unfold imports_from.
  destruct (defined guard st); [reflexivity|].
  destruct (import_all (enter resolve d) file_imports (guarded st));
    reflexivity.
Qed.

End Resolved.

(** A file on its own is the file processed on an include path where
    every header is present and empty. *)
Lemma enter_empty_headers (d : nat) (h : string) (c : Config) :
  enter empty_headers (S d) h c = Ok c.
Proof. destruct c. reflexivity. Qed.

Lemma run_with_ext (e1 e2 : string -> Config -> result Config) :
  (forall h c, e1 h c = e2 h c) ->
  forall ls c, run_with e1 ls c = run_with e2 ls c.
Proof.
  intros He ls. induction ls as [|l ls IH]; intros c; [reflexivity|].
  simpl. replace (step_with e1 l c) with (step_with e2 l c).
  - destruct (step_with e2 l c); simpl; [apply IH | reflexivity].
  - destruct l as [| |dd|t|t]; try reflexivity.
    destruct dd; try reflexivity; simpl; unfold import_with;
      rewrite He; reflexivity.
Qed.

Lemma process_file_on_its_own (d : nat) (f : list string) (st : State) :
  process_file_in empty_headers (S d) f st = process_file f st.
Proof.
  unfold process_file_in, process_file, run.
  rewrite (run_with_ext _ stand_in (enter_empty_headers d)).
  destruct (run_with stand_in (map classify f) (start st)) as [c|e];
    [|reflexivity].
  simpl. unfold closed. destruct (conds c); reflexivity.
Qed.

(** ** The claims that depend on the imported headers *)

(** C4, as stated, fails: processing the header fails when a React
    header cannot be found (on an include path without the framework,
    the first import is the error). *)
Lemma C4_missing_header_fails :
  ~ (forall resolve d st, is_ok (process_header_in resolve d st) = true).
Proof.
  intros H. specialize (H no_headers 1 empty_state).
  vm_compute in H. discriminate H.
Qed.

(** C4, amended: none of the file's own directives can fail, and
    processing the file fails only through its imports: when the guard
    is already defined it succeeds and performs nothing, whatever the
    include path; when the guard is undefined it succeeds exactly when
    the five imports of the React headers succeed, as they do when each
    header is present and empty. *)
Theorem C4_fails_only_through_imports
    (resolve : string -> option (list string)) (d : nat) (st : State) :
  process_header_in resolve d st
    = (if defined guard st then Ok (st, []) else imports_from resolve d st)
  /\ is_ok (process_header_in resolve d st)
     = defined guard st
       || is_ok (import_all (enter resolve d) file_imports (guarded st))
  /\ is_ok (process_header_in empty_headers (S d) st) = true
  /\ is_ok (process_header st) = true.
Proof.
  split; [apply process_header_in_spec|].
  split.
  { rewrite process_header_in_spec. unfold imports_from.
    destruct (defined guard st); [reflexivity|].
    destruct (import_all (enter resolve d) file_imports (guarded st));
      reflexivity. }
  assert (Hown : is_ok (process_header st) = true)
    by (rewrite process_header_spec; reflexivity).
  split; [|exact Hown].
  unfold process_header_in. rewrite process_file_on_its_own. exact Hown.
Qed.

(** C5, amended: the file's own lines declare no entity and write no
    macro other than the include guard: when the guard is already
    defined processing leaves the whole state unchanged, whatever the
    include path; otherwise the first import is entered with the
    entities, the imported headers and the macros of the starting state
    plus the guard, and everything processing changes beyond that is
    changed by the five imported headers (nothing, when they are
    empty). *)
Theorem C5_only_guard_and_imports
    (resolve : string -> option (list string)) (d : nat) (st : State) :
  file_declarations = []
  /\ file_defines = [(guard, "")]
  /\ file_undefs = []
  /\ entities (cstate (guarded st)) = entities st
  /\ imported (cstate (guarded st)) = imported st
  /\ delete guard (macros (cstate (guarded st))) = delete guard (macros st)
  /\ process_header_in resolve d st
     = (if defined guard st then Ok (st, []) else imports_from resolve d st)
  /\ exists st' t,
       process_header_in empty_headers (S d) st = Ok (st', t)
       /\ entities st' = entities st
       /\ delete guard (macros st') = delete guard (macros st).
Proof.
  split; [apply file_declarations_eq|].
  split; [unfold file_defines; rewrite header_lines_eq; reflexivity|].
  split; [unfold file_undefs; rewrite header_lines_eq; reflexivity|].
  split; [reflexivity|]. split; [reflexivity|].
  split; [apply delete_insert_eq|].
  split; [apply process_header_in_spec|].
  unfold process_header_in. rewrite process_file_on_its_own.
  fold (process_header st). rewrite process_header_spec.
  destruct (defined guard st); eexists _, _; (split; [reflexivity|]).
  - split; reflexivity.
  - split; [reflexivity|].
    rewrite replay_header_macros. apply delete_insert_eq.
Qed.

(** C9, as stated, fails: after processing, the macro environment can
    hold more than the starting one plus the guard, because the imported
    headers define macros of their own. *)
Lemma C9_imports_define_macros :
  ~ (forall resolve d st st' t,
       macros st !! guard = None ->
       process_header_in resolve d st = Ok (st', t) ->
       macros st' = <[guard := ""]> (macros st)).
Proof.
  intros H.
  assert (Hp : match process_header_in sample_headers 1 empty_state with
               | Ok (s, _) => macros s !! "RCT_EXTERN"
               | Err _ => None
               end = Some "extern") by (vm_compute; reflexivity).
  destruct (process_header_in sample_headers 1 empty_state)
    as [[st' t]|e] eqn:E; [|discriminate Hp].
  rewrite (H sample_headers 1 empty_state st' t (lookup_empty _) E) in Hp.
  rewrite lookup_insert_ne in Hp by discriminate.
  unfold empty_state in Hp. cbn [macros] in Hp.
  rewrite lookup_empty in Hp. discriminate Hp.
Qed.

(** C9, amended: the file's own directives define exactly one macro,
    [Blaze_Bridging_Header_h] with an empty body, and undefine none: for
    every starting macro environment in which the guard is undefined,
    the environment with which the first import is entered equals the
    starting one plus the single guard macro, and so does the resulting
    environment when the imported headers are empty; any other macro
    defined by processing comes from the imported headers. *)
Theorem C9_own_directives_define_only_guard
    (resolve : string -> option (list string)) (d : nat) (st : State) :
  macros st !! guard = None ->
  file_defines = [(guard, "")]
  /\ file_undefs = []
  /\ run_with (enter resolve d) (take 10 header_lines) (start st)
     = Ok (guarded st)
  /\ macros (cstate (guarded st)) = <[guard := ""]> (macros st)
  /\ delete guard (macros (cstate (guarded st))) = macros st
  /\ process_header_in resolve d st = imports_from resolve d st
  /\ exists st' t,
       process_header_in empty_headers (S d) st = Ok (st', t)
       /\ defines t = [(guard, "")]
       /\ macros st' = <[guard := ""]> (macros st).
Proof.
  intros Hg. apply defined_false_lookup in Hg as Hd.
  split; [unfold file_defines; rewrite header_lines_eq; reflexivity|].
  split; [unfold file_undefs; rewrite header_lines_eq; reflexivity|].
  split; [rewrite run_header_prefix_in, Hd; reflexivity|].
  split; [reflexivity|].
  split.
  { change (macros (cstate (guarded st))) with (<[guard := ""]> (macros st)).
    rewrite delete_insert_eq. apply delete_id, Hg. }
  split; [rewrite process_header_in_spec, Hd; reflexivity|].
  unfold process_header_in. rewrite process_file_on_its_own.
  fold (process_header st). rewrite process_header_spec, Hd.
  eexists _, _. split; [reflexivity|]. split; reflexivity.
Qed.

Lemma C9_own_directives_define_only_guard_witness :
  macros busy_state !! guard = None
  /\ (file_defines = [(guard, "")]
      /\ file_undefs = []
      /\ run_with (enter sample_headers 1) (take 10 header_lines)
           (start busy_state)
         = Ok (guarded busy_state)
      /\ macros (cstate (guarded busy_state))
         = <[guard := ""]> (macros busy_state)
      /\ delete guard (macros (cstate (guarded busy_state)))
         = macros busy_state
      /\ process_header_in sample_headers 1 busy_state
         = imports_from sample_headers 1 busy_state
      /\ exists st' t,
           process_header_in empty_headers 2 busy_state = Ok (st', t)
           /\ defines t = [(guard, "")]
           /\ macros st' = <[guard := ""]> (macros busy_state)).
Proof.
  split;
    [reflexivity
    | apply (C9_own_directives_define_only_guard sample_headers 1 busy_state);
      reflexivity].
Defined.

(** C10, as stated, fails: two states that agree on the guard can get
    different effects, because what an imported header contributes
    depends on the other macros (and on the headers imported before). *)
Lemma C10_imports_depend_on_other_macros :
  ~ (forall resolve d s1 s2,
       defined guard s1 = defined guard s2 ->
       effects_of (process_header_in resolve d s1)
       = effects_of (process_header_in resolve d s2)).
Proof.
  intros H.
  specialize (H sample_headers 1 busy_state empty_state eq_refl).
  vm_compute in H. discriminate H.
Qed.

(** C10, amended: what the file's own directives do depends only on
    whether the guard is defined: from two states that agree on that,
    processing either performs nothing in both, or in both defines the
    guard and then imports the same five headers in the same order; with
    empty headers the two traces of effects are equal.  What the
    imported headers contribute beyond that may depend on the rest of
    the state. *)
Theorem C10_own_effects_depend_only_on_guard
    (resolve : string -> option (list string)) (d : nat) (s1 s2 : State) :
  defined guard s1 = defined guard s2 ->
  process_header_in resolve d s1
    = (if defined guard s1 then Ok (s1, []) else imports_from resolve d s1)
  /\ process_header_in resolve d s2
     = (if defined guard s1 then Ok (s2, []) else imports_from resolve d s2)
  /\ exists t,
       process_header_in empty_headers (S d) s1 = Ok (replay t s1, t)
       /\ process_header_in empty_headers (S d) s2 = Ok (replay t s2, t)
       /\ t = (if defined guard s1 then [] else header_effects).
Proof.
  intros Hd.
  split; [apply process_header_in_spec|].
  split; [rewrite Hd; apply process_header_in_spec|].
  unfold process_header_in. rewrite !process_file_on_its_own.
  fold (process_header s1) (process_header s2).
  rewrite !process_header_spec, <- Hd.
  destruct (defined guard s1).
  - exists []. repeat split.
  - exists header_effects. repeat split.
Qed.

Lemma C10_own_effects_depend_only_on_guard_witness :
  defined guard busy_state = defined guard empty_state
  /\ (process_header_in sample_headers 1 busy_state
        = (if defined guard busy_state then Ok (busy_state, [])
           else imports_from sample_headers 1 busy_state)
      /\ process_header_in sample_headers 1 empty_state
         = (if defined guard busy_state then Ok (empty_state, [])
            else imports_from sample_headers 1 empty_state)
      /\ exists t,
           process_header_in empty_headers 2 busy_state
             = Ok (replay t busy_state, t)
           /\ process_header_in empty_headers 2 empty_state
              = Ok (replay t empty_state, t)
           /\ t = (if defined guard busy_state then [] else header_effects)).
Proof.
  split;
    [reflexivity
    | apply (C10_own_effects_depend_only_on_guard
               sample_headers 1 busy_state empty_state);
      reflexivity].
Defined.
